(** * Error handlers of the dispatcher (app/src/lib/dispatcher/error-handlers.ts)

    A shallow embedding of the three error classifiers and the four error
    handlers of the module, and the properties of them that the specification
    states.

    - JavaScript values that the code probes dynamically ([e.code] read
      through [any]) are a small value type with [ToBoolean] and [===].
    - The classes [Error], [GitError] and [ErrorWithMetadata] are an inductive
      type; a subclass instance is an [Error] through an explicit upcast, and
      [instanceof] is a match on the upcast.
    - An [async] handler is a computation in a state monad over a [World]
      that holds the application state and the log of calls made on the
      dispatcher; [await] is the monad's bind.  The value of a computation is
      what the handler's promise resolves to: [None] is the [null] of
      "handled", [Some e] the error handed to the next handler. *)

From Stdlib Require Import ZArith String List Bool Lia.
From ExtLib Require Import Structures.Monad Structures.MonadState.
From ExtLib Require Import Data.Monads.StateMonad.
Import ListNotations.
Import MonadNotation.
Local Open Scope monad_scope.
Local Open Scope string_scope.

(** ** JavaScript values *)

Module Js.

(** The values a property read through [any] can yield.  Numbers are the
    integer-valued ones and NaN: conversion to boolean and strict equality,
    the only operations the module applies, see no more of a number than
    whether it is zero, NaN, or equal to another one.  Objects and symbols
    are their identity. *)
Inductive value : Type :=
| JsUndefined
| JsNull
| JsBoolean (b : bool)
| JsNumber (n : Z)
| JsNaN
| JsBigInt (n : Z)
| JsString (s : string)
| JsSymbol (id : nat)
| JsObject (ref : nat).

(** [ToBoolean]: what [if (v)] and [!v] test. *)
Definition to_boolean (v : value) : bool :=
  match v with
  | JsUndefined | JsNull | JsNaN => false
  | JsBoolean b => b
  | JsNumber n | JsBigInt n => negb (n =? 0)%Z
  | JsString s => negb (s =? "")
  | JsSymbol _ | JsObject _ => true
  end.

(** [a === b]. *)
Definition strict_equals (a b : value) : bool :=
  match a, b with
  | JsUndefined, JsUndefined => true
  | JsNull, JsNull => true
  | JsBoolean x, JsBoolean y => Bool.eqb x y
  | JsNumber x, JsNumber y => (x =? y)%Z
  | JsBigInt x, JsBigInt y => (x =? y)%Z
  | JsString x, JsString y => (x =? y)
  | JsSymbol x, JsSymbol y => (x =? y)%nat
  | JsObject x, JsObject y => (x =? y)%nat
  | _, _ => false
  end.

(** [a || b]: the left operand when it is truthy, else the right one. *)
Definition or (a b : value) : value :=
  if to_boolean a then a else b.

(** [o && rhs] where [o] is an object or [null]: [null] when [o] is, else
    the right operand, which may read fields of [o]. *)
Definition and_object {A : Type} (o : option A) (rhs : A -> value) : value :=
  match o with
  | Some a => rhs a
  | None => JsNull
  end.

End Js.

(** ** TypeScript enums *)

(** The value of a member of a TypeScript [enum]: a number or a string. *)
Inductive EnumValue : Type :=
| EnumNumber (n : Z)
| EnumString (s : string).

Definition enum_to_js (v : EnumValue) : Js.value :=
  match v with
  | EnumNumber n => Js.JsNumber n
  | EnumString s => Js.JsString s
  end.

Definition EnumValue_eqb (a b : EnumValue) : bool :=
  Js.strict_equals (enum_to_js a) (enum_to_js b).

(** A field of type [T | null] whose [T] is an enum. *)
Definition nullable_enum_to_js (v : option EnumValue) : Js.value :=
  match v with
  | Some x => enum_to_js x
  | None => Js.JsNull
  end.

(** ** Data model *)

(** dugite's [GitError] enum, imported as [DugiteError].  Its declaration is
    not part of this module; its members are enum values. *)
Definition DugiteError : Type := EnumValue.

(** [IGitResult] of lib/git/core: dugite's result of a git process together
    with the parsed error, [null] when git's output matched no known error. *)
Record IGitResult : Type := {
  stdout : string;
  stderr : string;
  exitCode : Z;
  gitError : option DugiteError;
  gitErrorDescription : option string
}.

(** [SelectionType.Repository]'s payload: a tracked repository. *)
Record Repository : Type := {
  id : Z;
  path : string;
  missing : bool
}.

Record CloningRepository : Type := {
  cloningId : Z;
  cloningPath : string;
  url : string
}.

(** [IErrorMetadata] of lib/error-with-metadata: optional context of an
    error.  [backgroundTask?: boolean] is [None] when the field is absent. *)
Record IErrorMetadata : Type := {
  backgroundTask : option bool;
  repository : option Repository
}.

(** What every [Error] object has: its identity, [name], [message], and
    whatever a read of [code] yields ([JsUndefined] when it has none). *)
Record ErrorFields : Type := {
  objectId : nat;
  name : string;
  message : string;
  code : Js.value
}.

(** [GitError] of lib/git/core: [class GitError extends Error]. *)
Record GitError : Type := {
  gitErrorFields : ErrorFields;
  result : IGitResult;
  args : list string
}.

(** [Error] and its two subclasses of interest.  [ErrorWithMetadata] wraps the
    error it was made from. *)
Inductive Error : Type :=
| PlainError (fields : ErrorFields)
| GitError_as_Error (g : GitError)
| ErrorWithMetadata_as_Error (m : ErrorWithMetadata)
with ErrorWithMetadata : Type :=
| Build_ErrorWithMetadata
    (fields : ErrorFields) (underlying : Error) (meta : IErrorMetadata).

Definition underlyingError (m : ErrorWithMetadata) : Error :=
  match m with Build_ErrorWithMetadata _ u _ => u end.

Definition metadata (m : ErrorWithMetadata) : IErrorMetadata :=
  match m with Build_ErrorWithMetadata _ _ md => md end.

Definition metadataErrorFields (m : ErrorWithMetadata) : ErrorFields :=
  match m with Build_ErrorWithMetadata f _ _ => f end.

Definition errorFields (e : Error) : ErrorFields :=
  match e with
  | PlainError f => f
  | GitError_as_Error g => gitErrorFields g
  | ErrorWithMetadata_as_Error m => metadataErrorFields m
  end.

(** [IErrorWithCode extends Error]: an interface, so the same object; what it
    adds is the right to read [code]. *)
Definition IErrorWithCode : Type := Error.

Definition errorCode (e : IErrorWithCode) : Js.value := code (errorFields e).

(** [SelectionType] and [PossibleSelections] of lib/app-state. *)
Module SelectionType.

Inductive t : Type :=
| Repository
| CloningRepository
| MissingRepository.

Definition eqb (a b : t) : bool :=
  match a, b with
  | Repository, Repository => true
  | CloningRepository, CloningRepository => true
  | MissingRepository, MissingRepository => true
  | _, _ => false
  end.

End SelectionType.

Inductive PossibleSelections : Type :=
| SelectedRepository (r : Repository)
| SelectedCloningRepository (r : CloningRepository)
| SelectedMissingRepository (r : Repository).

(** The [type] tag of a selection. *)
Definition selectionType (s : PossibleSelections) : SelectionType.t :=
  match s with
  | SelectedRepository _ => SelectionType.Repository
  | SelectedCloningRepository _ => SelectionType.CloningRepository
  | SelectedMissingRepository _ => SelectionType.MissingRepository
  end.

Record IAppState : Type := {
  selectedState : option PossibleSelections
}.

(** ** The world of a handler *)

(** A call made on the dispatcher. *)
Inductive DispatcherCall : Type :=
| PresentError (error : Error)
| UpdateRepositoryMissing (r : Repository) (isMissing : bool).

Record World : Type := {
  appState : IAppState;
  calls : list DispatcherCall;
  console : list Js.value
}.

(** The dispatcher is a collaborator: what its methods do to the application
    state is its own business.  A call is logged and then has the effect the
    dispatcher gives it; its promise is taken to settle. *)
Record Dispatcher : Type := {
  presentErrorEffect : Error -> IAppState -> IAppState;
  updateRepositoryMissingEffect : Repository -> bool -> IAppState -> IAppState
}.

Definition dispatch (c : DispatcherCall) (effect : IAppState -> IAppState)
  : state World unit :=
  modify (fun w => {| appState := effect (appState w);
                      calls := calls w ++ [c];
                      console := console w |}) ;;
  ret tt.

Definition presentError (d : Dispatcher) (error : Error) : state World unit :=
  dispatch (PresentError error) (presentErrorEffect d error).

Definition updateRepositoryMissing
  (d : Dispatcher) (r : Repository) (isMissing : bool) : state World unit :=
  dispatch (UpdateRepositoryMissing r isMissing)
           (updateRepositoryMissingEffect d r isMissing).

(** The store is a collaborator too: a handle that reads an application state
    out of the world. *)
Record AppStore : Type := {
  readState : World -> IAppState
}.

Definition getState (appStore : AppStore) : state World IAppState :=
  w <- get ;; ret (readState appStore w).

(** [console.log(v)]. *)
Definition console_log (v : Js.value) : state World unit :=
  modify (fun w => {| appState := appState w;
                      calls := calls w;
                      console := console w ++ [v] |}) ;;
  ret tt.

Definition ErrorHandler : Type :=
  Error -> Dispatcher -> state World (option Error).

(** How many times a handler run that took the call log from [before] to
    [after] called [updateRepositoryMissing], resp. [presentError]. *)
Definition isUpdateRepositoryMissing (c : DispatcherCall) : bool :=
  match c with UpdateRepositoryMissing _ _ => true | _ => false end.

Definition isPresentError (c : DispatcherCall) : bool :=
  match c with PresentError _ => true | _ => false end.

Definition count_calls (p : DispatcherCall -> bool) (l : list DispatcherCall) : nat :=
  length (filter p l).

(** ** The classifiers *)

Definition asErrorWithCode (error : Error) : option IErrorWithCode :=
  let e := error in
  if Js.to_boolean (errorCode e) then Some e else None.

Definition asErrorWithMetadata (error : Error) : option ErrorWithMetadata :=
  match error with
  | ErrorWithMetadata_as_Error m => Some m
  | _ => None
  end.

Definition asGitError (error : Error) : option GitError :=
  match error with
  | GitError_as_Error g => Some g
  | _ => None
  end.

(** [error instanceof ErrorWithMetadata], [error instanceof GitError]. *)
Definition instanceofErrorWithMetadata (error : Error) : bool :=
  match error with ErrorWithMetadata_as_Error _ => true | _ => false end.

Definition instanceofGitError (error : Error) : bool :=
  match error with GitError_as_Error _ => true | _ => false end.

(** The repository a selection carries, for the two kinds that carry one. *)
Definition selectedRepository (s : PossibleSelections) : option Repository :=
  match s with
  | SelectedRepository r | SelectedMissingRepository r => Some r
  | SelectedCloningRepository _ => None
  end.

(** The test of the selection's [type] in the missing-repository handler:
    [type !== SelectionType.MissingRepository && type !== SelectionType.Repository]. *)
Definition carriesNoRepository (s : PossibleSelections) : bool :=
  negb (SelectionType.eqb (selectionType s) SelectionType.MissingRepository)
  && negb (SelectionType.eqb (selectionType s) SelectionType.Repository).

(** *** Reading [code] as JavaScript does

    [e.code] on an object is a [[Get]]: of a data property it yields the
    value held ([undefined] when the object has none), of an accessor
    property it runs the getter, which may change the world and may throw.
    [ErrorFields.code] above is what the read yields when it yields; the
    definitions below are [asErrorWithCode] over any way of reading. *)

(** How an evaluation ends: with a value, or by throwing one. *)
Inductive Completion (A : Type) : Type :=
| Normal (a : A)
| Throw (exn : Js.value).

Arguments Normal {A} a.
Arguments Throw {A} exn.

(** The read of [code] of an error. *)
Definition Getter : Type := Error -> state World (Completion Js.value).

(** The read of [code] when it is a data property, or absent. *)
Definition dataCode : Getter :=
  fun error => ret (Normal (errorCode error)).

(** [asErrorWithCode], with the read of [e.code] spelled out. *)
Definition evalAsErrorWithCode (getCode : Getter) (error : Error)
  : state World (Completion (option IErrorWithCode)) :=
  let e := error in
  c <- getCode e ;;
  match c with
  | Throw exn => ret (Throw exn)
  | Normal v => if Js.to_boolean v then ret (Normal (Some e)) else ret (Normal None)
  end.

(** The falsy values of JavaScript, one by one. *)
Definition isFalsy (v : Js.value) : Prop :=
  v = Js.JsUndefined \/ v = Js.JsNull \/ v = Js.JsBoolean false
  \/ v = Js.JsNumber 0 \/ v = Js.JsNaN \/ v = Js.JsBigInt 0
  \/ v = Js.JsString "".

(** A measure of how deeply an error is wrapped. *)
Fixpoint wrappingDepth (e : Error) : nat :=
  match e with
  | PlainError _ | GitError_as_Error _ => 0
  | ErrorWithMetadata_as_Error (Build_ErrorWithMetadata _ u _) =>
      S (wrappingDepth u)
  end.

(** ** Concrete inputs *)

Module Sample.

(** Values for what the module imports, picked for the examples below: any
    distinct enum values and any non-empty code would do. *)
Definition NotAGitRepository : DugiteError := EnumNumber 9.
Definition SSHAuthenticationFailed : DugiteError := EnumNumber 1.
Definition HTTPSAuthenticationFailed : DugiteError := EnumNumber 3.
Definition RepositoryDoesNotExistErrorCode : string :=
  "repository-does-not-exist-error".
Definition AuthenticationErrors : list DugiteError :=
  [SSHAuthenticationFailed; HTTPSAuthenticationFailed].

Definition fields (n : nat) (msg : string) (c : Js.value) : ErrorFields :=
  {| objectId := n; name := "Error"; message := msg; code := c |}.

(** [new Error('boom')]. *)
Definition plain : Error := PlainError (fields 1 "boom" Js.JsUndefined).

(** An error with the code of a missing repository, as dugite raises. *)
Definition enoent : Error :=
  PlainError (fields 2 "no such repository"
                (Js.JsString RepositoryDoesNotExistErrorCode)).

(** An error whose [code] is a number, as a [DOMException] has. *)
Definition numericCode : Error :=
  PlainError (fields 3 "aborted" (Js.JsNumber 20)).

Definition gitResult (e : option DugiteError) : IGitResult :=
  {| stdout := ""; stderr := "fatal"; exitCode := 128;
     gitError := e; gitErrorDescription := None |}.

Definition gitErrorOf (n : nat) (e : option DugiteError) : GitError :=
  {| gitErrorFields := fields n "git failed" Js.JsUndefined;
     result := gitResult e;
     args := ["status"] |}.

Definition notARepository : Error :=
  GitError_as_Error (gitErrorOf 4 (Some NotAGitRepository)).

Definition authFailed : Error :=
  GitError_as_Error (gitErrorOf 5 (Some HTTPSAuthenticationFailed)).

Definition foreground : ErrorWithMetadata :=
  Build_ErrorWithMetadata (fields 6 "boom" Js.JsUndefined) plain
    {| backgroundTask := Some false; repository := None |}.

Definition background : ErrorWithMetadata :=
  Build_ErrorWithMetadata (fields 7 "git failed" Js.JsUndefined) notARepository
    {| backgroundTask := Some true; repository := None |}.

Definition repo : Repository :=
  {| id := 1; path := "/home/me/desktop"; missing := false |}.

Definition goneRepo : Repository :=
  {| id := 2; path := "/home/me/gone"; missing := true |}.

Definition cloning : CloningRepository :=
  {| cloningId := 3; cloningPath := "/home/me/new"; url := "https://example.com/r.git" |}.

Definition world (s : option PossibleSelections) : World :=
  {| appState := {| selectedState := s |}; calls := []; console := [] |}.

(** A store that reads the world's application state. *)
Definition appStore : AppStore := {| readState := appState |}.

(** A dispatcher whose [updateRepositoryMissing] turns the selection into a
    missing repository, and whose [presentError] leaves the state alone. *)
Definition dispatcher : Dispatcher :=
  {| presentErrorEffect := fun _ st => st;
     updateRepositoryMissingEffect := fun r m _ =>
       {| selectedState :=
            Some (SelectedMissingRepository
                    {| id := id r; path := path r; missing := m |}) |} |}.

(** An enum member whose value is 0, as the first member of a numeric
    TypeScript enum has, and a set of authentication errors that holds it. *)
Definition SSHKeyAuditUnverified : DugiteError := EnumNumber 0.

Definition AuthenticationErrorsWithZero : list DugiteError :=
  [SSHKeyAuditUnverified; SSHAuthenticationFailed; HTTPSAuthenticationFailed].

Definition auditUnverified : Error :=
  GitError_as_Error (gitErrorOf 8 (Some SSHKeyAuditUnverified)).

(** A foreground error that wraps the [GitError] of a directory that is not
    a repository. *)
Definition wrappedNotARepository : ErrorWithMetadata :=
  Build_ErrorWithMetadata (fields 9 "git failed" Js.JsUndefined) notARepository
    {| backgroundTask := None; repository := Some repo |}.

(** A [MissingRepository] selection whose repository record is not flagged. *)
Definition staleRepo : Repository :=
  {| id := 4; path := "/home/me/stale"; missing := false |}.

(** The error of a child process that exited with status 128: its [code] is
    the exit status, a number. *)
Definition gitExit : Error :=
  PlainError (fields 10 "Command failed: git status" (Js.JsNumber 128)).

(** A [code] accessor that throws, and one that writes to the console. *)
Definition throwingCode : Getter :=
  fun _ => ret (Throw (Js.JsString "code is not readable")).

Definition loggingCode : Getter :=
  fun error => console_log (Js.JsString "code was read") ;;
               ret (Normal (errorCode error)).

End Sample.

(** ** The handlers *)

Section ErrorHandlers.

(** What the module imports from dugite and lib/git/authentication: the enum
    member [DugiteError.NotAGitRepository], the string
    [RepositoryDoesNotExistErrorCode], and the set [AuthenticationErrors]. *)
Variable NotAGitRepository : DugiteError.
Variable RepositoryDoesNotExistErrorCode : string.
Variable AuthenticationErrors : list DugiteError.

(** [AuthenticationErrors.has(e)]. *)
Definition AuthenticationErrors_has (e : DugiteError) : bool :=
  existsb (EnumValue_eqb e) AuthenticationErrors.

(** Handle errors by presenting them. *)
Definition defaultErrorHandler : ErrorHandler :=
  fun error dispatcher =>
    presentError dispatcher error ;;
    ret None.

(** Create a new missing repository error handler with the given AppStore.
    The match on the selection is the test of its [type] against
    [MissingRepository] and [Repository], after which [repository] is a
    [Repository]. *)
Definition createMissingRepositoryHandler (appStore : AppStore) : ErrorHandler :=
  fun error dispatcher =>
    appState <- getState appStore ;;
    let selectedState := selectedState appState in
    match selectedState with
    | None => ret (Some error)
    | Some (SelectedCloningRepository _) => ret (Some error)
    | Some (SelectedRepository repository)
    | Some (SelectedMissingRepository repository) =>
        if missing repository then ret None
        else
          let errorWithCode := asErrorWithCode error in
          let gitError_ := asGitError error in
          let missing :=
            Js.or
              (Js.and_object gitError_ (fun gitError_ =>
                 Js.JsBoolean
                   (Js.strict_equals
                      (nullable_enum_to_js (gitError (result gitError_)))
                      (enum_to_js NotAGitRepository))))
              (Js.and_object errorWithCode (fun errorWithCode =>
                 Js.JsBoolean
                   (Js.strict_equals
                      (errorCode errorWithCode)
                      (Js.JsString RepositoryDoesNotExistErrorCode)))) in
          if Js.to_boolean missing then
            updateRepositoryMissing dispatcher repository true ;;
            ret None
          else ret (Some error)
    end.

(** Handle errors that happen as a result of a background task. *)
Definition backgroundTaskHandler : ErrorHandler :=
  fun error dispatcher =>
    match asErrorWithMetadata error with
    | None => ret (Some error)
    | Some e =>
        let metadata := metadata e in
        match backgroundTask metadata with
        | Some true => ret None
        | Some false | None => ret (Some error)
        end
    end.

(** Handle git authentication errors.  The [debugger] statement does nothing
    to the program's state. *)
Definition gitAuthenticationErrorHandler : ErrorHandler :=
  fun error dispatcher =>
    match asGitError error with
    | None => ret (Some error)
    | Some gitError_ =>
        match gitError (result gitError_) with
        | None => ret (Some error)
        | Some dugiteError =>
            if negb (Js.to_boolean (enum_to_js dugiteError)) then
              ret (Some error)
            else if negb (AuthenticationErrors_has dugiteError) then
              ret (Some error)
            else
              console_log (enum_to_js dugiteError) ;;
              ret (Some error)
        end
    end.

(** The handlers of the module, in the order the specification documents
    for the chain. *)
Definition handlers (appStore : AppStore) : list ErrorHandler :=
  [ createMissingRepositoryHandler appStore;
    backgroundTaskHandler;
    gitAuthenticationErrorHandler;
    defaultErrorHandler ].

(** What a handler resolves to, and the world it leaves. *)
Definition outcome (h : ErrorHandler) (error : Error) (d : Dispatcher) (w : World)
  : option Error := fst (runState (h error d) w).

Definition worldAfter (h : ErrorHandler) (error : Error) (d : Dispatcher) (w : World)
  : World := snd (runState (h error d) w).

(** The specification's "resource now missing": the error is a [GitError]
    whose result carries [NotAGitRepository], or its code equals
    [RepositoryDoesNotExistErrorCode]. *)
Definition qualifiesAsMissing (error : Error) : Prop :=
  (exists g, error = GitError_as_Error g
             /\ gitError (result g) = Some NotAGitRepository)
  \/ errorCode error = Js.JsString RepositoryDoesNotExistErrorCode.

(** The test [if (missing)] of the missing-repository handler, as a boolean. *)
Definition missingTest (error : Error) : bool :=
  Js.to_boolean
    (Js.or
       (Js.and_object (asGitError error) (fun g =>
          Js.JsBoolean
            (Js.strict_equals (nullable_enum_to_js (gitError (result g)))
                              (enum_to_js NotAGitRepository))))
       (Js.and_object (asErrorWithCode error) (fun c =>
          Js.JsBoolean
            (Js.strict_equals (errorCode c)
                              (Js.JsString RepositoryDoesNotExistErrorCode))))).

(** ** Facts about values and errors *)

Lemma strict_equals_string (s t : string) :
  Js.strict_equals (Js.JsString s) (Js.JsString t) = true <-> s = t.
Proof. simpl. apply String.eqb_eq. Qed.

Lemma strict_equals_to_string (v : Js.value) (s : string) :
  Js.strict_equals v (Js.JsString s) = true -> v = Js.JsString s.
Proof.
  destruct v; simpl; try discriminate.
  intros H. apply String.eqb_eq in H. now subst.
Qed.

Lemma strict_equals_to_enum (o : option EnumValue) (x : EnumValue) :
  Js.strict_equals (nullable_enum_to_js o) (enum_to_js x) = true <-> o = Some x.
Proof.
  split.
  - destruct o as [[n | s] |], x as [m | t]; simpl; try discriminate.
    + intros H. apply Z.eqb_eq in H. now subst.
    + intros H. apply String.eqb_eq in H. now subst.
  - intros ->. destruct x; simpl.
    + apply Z.eqb_refl.
    + apply String.eqb_refl.
Qed.

Lemma to_boolean_string (s : string) :
  Js.to_boolean (Js.JsString s) = true <-> s <> "".
Proof.
  simpl. rewrite negb_true_iff. apply String.eqb_neq.
Qed.

(** The match on the selection in the handler decides what the test of its
    [type] decides. *)
Lemma carriesNoRepository_spec (s : PossibleSelections) :
  carriesNoRepository s = true <-> selectedRepository s = None.
Proof.
  destruct s; simpl; split; intros H; try discriminate; reflexivity.
Qed.

Lemma wrapper_is_not_inner (m : ErrorWithMetadata) :
  ErrorWithMetadata_as_Error m <> underlyingError m.
Proof.
  intros H. apply (f_equal wrappingDepth) in H.
  destruct m as [f u md]. simpl in H. lia.
Qed.

Lemma asErrorWithCode_cases (error : Error) :
  asErrorWithCode error
  = if Js.to_boolean (errorCode error) then Some error else None.
Proof. reflexivity. Qed.

Lemma asGitError_Some (error : Error) (g : GitError) :
  asGitError error = Some g <-> error = GitError_as_Error g.
Proof.
  destruct error; simpl; split; intros H; try discriminate; congruence.
Qed.

Lemma asErrorWithMetadata_Some (error : Error) (m : ErrorWithMetadata) :
  asErrorWithMetadata error = Some m <-> error = ErrorWithMetadata_as_Error m.
Proof.
  destruct error; simpl; split; intros H; try discriminate; congruence.
Qed.

Lemma missingTest_qualifies (error : Error) :
  missingTest error = true -> qualifiesAsMissing error.
Proof.
  unfold missingTest, qualifiesAsMissing, Js.or, Js.and_object.
  destruct (asGitError error) as [g |] eqn:Hg.
  - simpl.
    destruct (Js.strict_equals (nullable_enum_to_js (gitError (result g))) _)
      eqn:Hn.
    + intros _. left. exists g. split.
      * now apply asGitError_Some.
      * now apply strict_equals_to_enum.
    + rewrite asErrorWithCode_cases.
      destruct (Js.to_boolean (errorCode error)); simpl; try discriminate.
      intros H. right. now apply strict_equals_to_string.
  - simpl. rewrite asErrorWithCode_cases.
    destruct (Js.to_boolean (errorCode error)); simpl; try discriminate.
    intros H. right. now apply strict_equals_to_string.
Qed.

Lemma qualifies_missingTest (error : Error) :
  RepositoryDoesNotExistErrorCode <> "" ->
  qualifiesAsMissing error -> missingTest error = true.
Proof.
  intros Hne [[g [-> Hg]] | Hc]; unfold missingTest, Js.or.
  - simpl Js.and_object at 1.
    apply strict_equals_to_enum in Hg. rewrite Hg. simpl. exact Hg.
  - destruct (Js.to_boolean (Js.and_object (asGitError error) _)) eqn:Ht.
    + exact Ht.
    + rewrite asErrorWithCode_cases, Hc.
      apply to_boolean_string in Hne. rewrite Hne.
      unfold Js.and_object. rewrite Hc. simpl.
      apply String.eqb_refl.
Qed.

(** The handler of [createMissingRepositoryHandler], run on a selection that
    carries a repository. *)
Lemma missingRepositoryHandler_on_repository
  (appStore : AppStore) (error : Error) (d : Dispatcher) (w : World)
  (sel : PossibleSelections) (r : Repository) :
  selectedState (readState appStore w) = Some sel ->
  selectedRepository sel = Some r ->
  runState (createMissingRepositoryHandler appStore error d) w
  = if missing r then (None, w)
    else if missingTest error then
      (None, {| appState := updateRepositoryMissingEffect d r true (appState w);
                calls := calls w ++ [UpdateRepositoryMissing r true];
                console := console w |})
    else (Some error, w).
Proof.
  intros Hsel Hr.
  unfold createMissingRepositoryHandler, getState. cbn.
  rewrite Hsel.
  destruct sel as [r' | c | r']; simpl in Hr; try discriminate;
    injection Hr as ->;
    (destruct (missing r); [reflexivity |]);
    fold (missingTest error);
    destruct (missingTest error); reflexivity.
Qed.

Lemma count_calls_snoc (p : DispatcherCall -> bool) (l : list DispatcherCall)
  (c : DispatcherCall) :
  count_calls p (l ++ [c]) = count_calls p l + (if p c then 1 else 0).
Proof.
  unfold count_calls. rewrite filter_app, length_app. simpl.
  destruct (p c); reflexivity.
Qed.

(** Every run of [gitAuthenticationErrorHandler] yields the input error and
    touches the console at most. *)
Lemma gitAuthenticationErrorHandler_run
  (error : Error) (d : Dispatcher) (w : World) :
  outcome gitAuthenticationErrorHandler error d w = Some error
  /\ calls (worldAfter gitAuthenticationErrorHandler error d w) = calls w
  /\ appState (worldAfter gitAuthenticationErrorHandler error d w) = appState w.
Proof.
  unfold outcome, worldAfter, gitAuthenticationErrorHandler.
  destruct (asGitError error) as [g |]; [| repeat split].
  destruct (gitError (result g)) as [e |]; [| repeat split].
  destruct (negb (Js.to_boolean (enum_to_js e))); [repeat split |].
  destruct (negb (AuthenticationErrors_has e)); repeat split.
Qed.

(** ** The default handler *)

(** C4. For every input error, [defaultErrorHandler] calls the dispatcher's
    [presentError] exactly once, on exactly the input error, and, that call
    completed, resolves to [null]; nothing else is called, and no test of the
    error stands before the call. *)
Theorem defaultErrorHandler_presents_once_and_resolves
  (error : Error) (d : Dispatcher) (w : World) :
  runState (defaultErrorHandler error d) w
  = (None, {| appState := presentErrorEffect d error (appState w);
              calls := calls w ++ [PresentError error];
              console := console w |})
  /\ count_calls isPresentError (calls (worldAfter defaultErrorHandler error d w))
     = S (count_calls isPresentError (calls w))
  /\ count_calls isUpdateRepositoryMissing
       (calls (worldAfter defaultErrorHandler error d w))
     = count_calls isUpdateRepositoryMissing (calls w).
Proof.
  assert (Hrun : runState (defaultErrorHandler error d) w
                 = (None, {| appState := presentErrorEffect d error (appState w);
                             calls := calls w ++ [PresentError error];
                             console := console w |}))
    by reflexivity.
  split; [exact Hrun |].
  unfold worldAfter. rewrite Hrun. cbn [snd calls].
  rewrite !count_calls_snoc. simpl. lia.
Qed.

(** ** The missing-repository handler *)

(** C2. When the selection is a tracked repository that is not flagged
    missing and the error is a [GitError] whose result carries
    [NotAGitRepository], or has a code equal to
    [RepositoryDoesNotExistErrorCode] (a non-empty string), the handler calls
    [updateRepositoryMissing] exactly once, with the selected repository and
    [true], and, that call completed, resolves to [null]. *)
Theorem missingRepositoryHandler_marks_missing
  (appStore : AppStore) (error : Error) (d : Dispatcher) (w : World)
  (r : Repository) :
  selectedState (readState appStore w) = Some (SelectedRepository r) ->
  missing r = false ->
  RepositoryDoesNotExistErrorCode <> "" ->
  qualifiesAsMissing error ->
  runState (createMissingRepositoryHandler appStore error d) w
  = (None, {| appState := updateRepositoryMissingEffect d r true (appState w);
              calls := calls w ++ [UpdateRepositoryMissing r true];
              console := console w |})
  /\ count_calls isUpdateRepositoryMissing
       (calls (worldAfter (createMissingRepositoryHandler appStore) error d w))
     = S (count_calls isUpdateRepositoryMissing (calls w))
  /\ count_calls isPresentError
       (calls (worldAfter (createMissingRepositoryHandler appStore) error d w))
     = count_calls isPresentError (calls w).
Proof.
  intros Hsel Hm Hne Hq.
  assert (Hrun := missingRepositoryHandler_on_repository
                    appStore error d w _ r Hsel eq_refl).
  rewrite Hm, (qualifies_missingTest error Hne Hq) in Hrun.
  unfold worldAfter. rewrite Hrun. cbn [snd calls].
  rewrite !count_calls_snoc. simpl. repeat split; lia.
Qed.

(** C6. When the selection carries a repository that is already flagged
    missing, the handler resolves to [null] at once, whatever the error is:
    the world is left as it was, so [updateRepositoryMissing] is not
    called. *)
Theorem missingRepositoryHandler_already_missing
  (appStore : AppStore) (error : Error) (d : Dispatcher) (w : World)
  (sel : PossibleSelections) (r : Repository) :
  selectedState (readState appStore w) = Some sel ->
  selectedRepository sel = Some r ->
  missing r = true ->
  runState (createMissingRepositoryHandler appStore error d) w = (None, w)
  /\ count_calls isUpdateRepositoryMissing
       (calls (worldAfter (createMissingRepositoryHandler appStore) error d w))
     = count_calls isUpdateRepositoryMissing (calls w).
Proof.
  intros Hsel Hr Hm.
  assert (Hrun := missingRepositoryHandler_on_repository
                    appStore error d w sel r Hsel Hr).
  rewrite Hm in Hrun. unfold worldAfter. rewrite Hrun. split; reflexivity.
Qed.

(** C7. When there is no selection, or the selection's kind is neither
    [Repository] nor [MissingRepository], or the selected repository is not
    flagged missing and the error does not qualify as "resource now missing",
    the handler resolves to the input error and leaves the world as it was:
    [updateRepositoryMissing] is not called. *)
Theorem missingRepositoryHandler_passes_through
  (appStore : AppStore) (error : Error) (d : Dispatcher) (w : World) :
  selectedState (readState appStore w) = None
  \/ (exists sel,
        selectedState (readState appStore w) = Some sel
        /\ selectionType sel <> SelectionType.Repository
        /\ selectionType sel <> SelectionType.MissingRepository)
  \/ (exists sel r,
        selectedState (readState appStore w) = Some sel
        /\ selectedRepository sel = Some r
        /\ missing r = false
        /\ ~ qualifiesAsMissing error) ->
  runState (createMissingRepositoryHandler appStore error d) w = (Some error, w)
  /\ count_calls isUpdateRepositoryMissing
       (calls (worldAfter (createMissingRepositoryHandler appStore) error d w))
     = count_calls isUpdateRepositoryMissing (calls w).
Proof.
  intros H.
  assert (Hrun : runState (createMissingRepositoryHandler appStore error d) w
                 = (Some error, w)).
  { destruct H as [Hnone | [[sel [Hsel [Hn1 Hn2]]] | [sel [r [Hsel [Hr [Hm Hq]]]]]]].
    - unfold createMissingRepositoryHandler, getState. cbn.
      rewrite Hnone. reflexivity.
    - unfold createMissingRepositoryHandler, getState. cbn.
      rewrite Hsel. destruct sel; simpl in Hn1, Hn2; try congruence.
      reflexivity.
    - rewrite (missingRepositoryHandler_on_repository
                 appStore error d w sel r Hsel Hr), Hm.
      destruct (missingTest error) eqn:Ht; [| reflexivity].
      exfalso. apply Hq. now apply missingTest_qualifies. }
  unfold worldAfter. rewrite Hrun. split; reflexivity.
Qed.

(** ** The background-task handler *)

(** C1 (amended). For every [ErrorWithMetadata] whose metadata has
    [backgroundTask] false or absent, [backgroundTaskHandler] resolves to the
    error it received, the metadata wrapper itself, which is not the inner
    error it wraps; the world is left as it was. *)
Theorem backgroundTaskHandler_propagates_wrapper
  (m : ErrorWithMetadata) (d : Dispatcher) (w : World) :
  backgroundTask (metadata m) = Some false \/ backgroundTask (metadata m) = None ->
  runState (backgroundTaskHandler (ErrorWithMetadata_as_Error m) d) w
  = (Some (ErrorWithMetadata_as_Error m), w)
  /\ ErrorWithMetadata_as_Error m <> underlyingError m.
Proof.
  intros H. split.
  - unfold backgroundTaskHandler. simpl.
    destruct H as [-> | ->]; reflexivity.
  - apply wrapper_is_not_inner.
Qed.

(** C5. For every [ErrorWithMetadata] whose metadata has [backgroundTask]
    true, whatever error it wraps, [backgroundTaskHandler] resolves to [null]
    and leaves the world as it was: nothing is presented, no state is
    changed.  For every error that is not an [ErrorWithMetadata] it resolves
    to the input error. *)
Theorem backgroundTaskHandler_suppresses_background_tasks
  (error : Error) (d : Dispatcher) (w : World) :
  (forall m,
      error = ErrorWithMetadata_as_Error m ->
      backgroundTask (metadata m) = Some true ->
      runState (backgroundTaskHandler error d) w = (None, w))
  /\ (instanceofErrorWithMetadata error = false ->
      runState (backgroundTaskHandler error d) w = (Some error, w)).
Proof.
  split.
  - intros m -> Hb. unfold backgroundTaskHandler. simpl. rewrite Hb. reflexivity.
  - destruct error; simpl; try discriminate; reflexivity.
Qed.

(** ** The authentication handler *)

(** C3. [gitAuthenticationErrorHandler] never resolves: for every input
    error, [GitError] or not, with a dugite error value or without, in
    [AuthenticationErrors] or not, it resolves to the input error, never to
    [null]; it calls nothing on the dispatcher. *)
Theorem gitAuthenticationErrorHandler_always_propagates
  (error : Error) (d : Dispatcher) (w : World) :
  outcome gitAuthenticationErrorHandler error d w = Some error
  /\ outcome gitAuthenticationErrorHandler error d w <> None
  /\ calls (worldAfter gitAuthenticationErrorHandler error d w) = calls w
  /\ appState (worldAfter gitAuthenticationErrorHandler error d w) = appState w.
Proof.
  destruct (gitAuthenticationErrorHandler_run error d w) as [Ho [Hc Ha]].
  repeat split; try assumption.
  rewrite Ho. discriminate.
Qed.

(** ** Properties of the classifiers *)

Lemma to_boolean_false_iff (v : Js.value) :
  Js.to_boolean v = false <-> isFalsy v.
Proof.
  unfold isFalsy. split.
  - destruct v as [| | b | n | | n | s | i | r]; simpl; intros H;
      try discriminate; auto 10.
    + subst b. auto.
    + apply negb_false_iff, Z.eqb_eq in H. subst n. auto 10.
    + apply negb_false_iff, Z.eqb_eq in H. subst n. auto 10.
    + apply negb_false_iff, String.eqb_eq in H. subst s. auto 10.
  - intros [-> | [-> | [-> | [-> | [-> | [-> | ->]]]]]]; reflexivity.
Qed.

(** C8 (amended).  Each classifier yields [null] or the input error itself,
    and which of the two is fixed by the error: [asErrorWithMetadata] and
    [asGitError] yield [null] exactly for the errors that are not instances
    of their class; [asErrorWithCode] yields [null] exactly for the errors
    whose [code] is falsy (absent, [null], [false], 0, NaN or the empty
    string), so an error with a truthy [code] that is not a string is not
    "not applicable".  [asErrorWithCode] does to the world what the read of
    [code] does and nothing more: it throws exactly when the read throws, and
    on an error whose [code] is plain data it neither throws nor changes
    anything. *)
Theorem classifiers_null_exactly_off_shape
  (error : Error) :
  (asErrorWithCode error = None <-> isFalsy (errorCode error))
  /\ (asErrorWithCode error = Some error <-> ~ isFalsy (errorCode error))
  /\ (forall c, asErrorWithCode error = Some c -> c = error)
  /\ (asErrorWithMetadata error = None
      <-> forall m, error <> ErrorWithMetadata_as_Error m)
  /\ (forall m, asErrorWithMetadata error = Some m
                <-> error = ErrorWithMetadata_as_Error m)
  /\ (asGitError error = None <-> forall g, error <> GitError_as_Error g)
  /\ (forall g, asGitError error = Some g <-> error = GitError_as_Error g)
  /\ (forall (getCode : Getter) (w w' : World) (v : Js.value),
        runState (getCode error) w = (Normal v, w') ->
        runState (evalAsErrorWithCode getCode error) w
        = (Normal (if Js.to_boolean v then Some error else None), w'))
  /\ (forall (getCode : Getter) (w w' : World) (exn : Js.value),
        runState (getCode error) w = (Throw exn, w') ->
        runState (evalAsErrorWithCode getCode error) w = (Throw exn, w'))
  /\ (forall w : World,
        runState (evalAsErrorWithCode dataCode error) w
        = (Normal (asErrorWithCode error), w)).
Proof.
  assert (Hcode : forall c, asErrorWithCode error = Some c -> c = error).
  { intros c. rewrite asErrorWithCode_cases.
    destruct (Js.to_boolean (errorCode error)); congruence. }
  split; [| split; [| split; [exact Hcode |]]].
  - rewrite <- to_boolean_false_iff, asErrorWithCode_cases.
    destruct (Js.to_boolean (errorCode error)); split; congruence.
  - rewrite <- to_boolean_false_iff, asErrorWithCode_cases.
    destruct (Js.to_boolean (errorCode error)); split; congruence.
  - split; [| split; [| split; [| split; [| split; [| split]]]]].
    + split.
      * intros Hn m ->. discriminate Hn.
      * intros H. destruct error as [f | g | m]; try reflexivity.
        exfalso. now apply (H m).
    + intros m. apply asErrorWithMetadata_Some.
    + split.
      * intros Hn g ->. discriminate Hn.
      * intros H. destruct error as [f | g | m]; try reflexivity.
        exfalso. now apply (H g).
    + intros g. apply asGitError_Some.
    + intros getCode w w' v Hread.
      unfold evalAsErrorWithCode. cbn. rewrite Hread. cbn.
      destruct (Js.to_boolean v); reflexivity.
    + intros getCode w w' exn Hread.
      unfold evalAsErrorWithCode. cbn. rewrite Hread. reflexivity.
    + intros w. unfold evalAsErrorWithCode, dataCode. cbn.
      rewrite asErrorWithCode_cases.
      destruct (Js.to_boolean (errorCode error)); reflexivity.
Qed.

(** C9 (amended). [asErrorWithCode] returns the input error, as a coded
    error, exactly when the error's [code] is truthy, and [null] for every
    other error; for an error whose [code] is a string, that is exactly when
    the string is not empty. *)
Theorem asErrorWithCode_iff_truthy_code
  (error : Error) :
  (asErrorWithCode error = Some error
   <-> Js.to_boolean (errorCode error) = true)
  /\ (asErrorWithCode error = None
      <-> Js.to_boolean (errorCode error) = false)
  /\ (forall s, errorCode error = Js.JsString s ->
        (asErrorWithCode error = Some error <-> s <> "")).
Proof.
  rewrite asErrorWithCode_cases.
  repeat split.
  - destruct (Js.to_boolean (errorCode error)); [reflexivity | discriminate].
  - intros ->. reflexivity.
  - destruct (Js.to_boolean (errorCode error)); [discriminate | reflexivity].
  - intros ->. reflexivity.
  - rewrite H. intros Hs. apply to_boolean_string.
    destruct (Js.to_boolean (Js.JsString s)); [reflexivity | discriminate].
  - rewrite H. intros Hs. apply to_boolean_string in Hs. rewrite Hs.
    reflexivity.
Qed.

(** ** All handlers *)

(** C10. Whenever a handler of the module propagates, what it hands on is the
    very error it received: on every run of the missing-repository handler,
    of [backgroundTaskHandler] and of [gitAuthenticationErrorHandler] (and of
    [defaultErrorHandler], which never propagates) that resolves to an
    error, that error is the input error. *)
Theorem handlers_propagate_input_error
  (appStore : AppStore) (h : ErrorHandler)
  (error : Error) (d : Dispatcher) (w : World) (e' : Error) :
  In h (handlers appStore) ->
  outcome h error d w = Some e' ->
  e' = error.
Proof.
  intros Hin Hout.
  assert (Hcases : outcome h error d w = None \/ outcome h error d w = Some error).
  { simpl in Hin. destruct Hin as [<- | [<- | [<- | [<- | []]]]].
    - unfold outcome, createMissingRepositoryHandler, getState. cbn.
      destruct (selectedState (readState appStore w)) as [[r | c | r] |];
        try (right; reflexivity);
        (destruct (missing r); [left; reflexivity |]);
        fold (missingTest error);
        destruct (missingTest error); [left | right | left | right]; reflexivity.
    - unfold outcome, backgroundTaskHandler.
      destruct (asErrorWithMetadata error) as [m |]; [| right; reflexivity].
      destruct (backgroundTask (metadata m)) as [[|] |];
        [left | right | right]; reflexivity.
    - right. apply gitAuthenticationErrorHandler_run.
    - left. reflexivity. }
  destruct Hcases as [Hn | Hs]; congruence.
Qed.

(** ** Further properties of the handlers *)

Lemma EnumValue_eqb_eq (a b : EnumValue) :
  EnumValue_eqb a b = true <-> a = b.
Proof.
  unfold EnumValue_eqb.
  destruct a as [n | s], b as [m | t]; simpl; split; intros H;
    try discriminate.
  - apply Z.eqb_eq in H. now subst.
  - injection H as ->. apply Z.eqb_refl.
  - apply String.eqb_eq in H. now subst.
  - injection H as ->. apply String.eqb_refl.
Qed.

Lemma AuthenticationErrors_has_In (e : DugiteError) :
  AuthenticationErrors_has e = true <-> In e AuthenticationErrors.
Proof.
  unfold AuthenticationErrors_has. rewrite existsb_exists. split.
  - intros [x [Hin Heq]]. apply EnumValue_eqb_eq in Heq. now subst.
  - intros Hin. exists e. split; [exact Hin | now apply EnumValue_eqb_eq].
Qed.

(** The handler of [createMissingRepositoryHandler], run on no selection or
    on a selection that carries no repository. *)
Lemma missingRepositoryHandler_off_repository
  (appStore : AppStore) (error : Error) (d : Dispatcher) (w : World) :
  selectedState (readState appStore w) = None
  \/ (exists sel, selectedState (readState appStore w) = Some sel
                  /\ selectedRepository sel = None) ->
  runState (createMissingRepositoryHandler appStore error d) w = (Some error, w).
Proof.
  intros [Hnone | [sel [Hsel Hr]]];
    unfold createMissingRepositoryHandler, getState; cbn.
  - rewrite Hnone. reflexivity.
  - rewrite Hsel. destruct sel; simpl in Hr; try discriminate. reflexivity.
Qed.

(** The selection either carries a repository or the handler has nothing to
    look at. *)
Lemma selection_cases (st : IAppState) :
  (selectedState st = None
   \/ exists sel, selectedState st = Some sel /\ selectedRepository sel = None)
  \/ exists sel r, selectedState st = Some sel /\ selectedRepository sel = Some r.
Proof.
  destruct (selectedState st) as [sel |]; [| left; left; reflexivity].
  destruct (selectedRepository sel) as [r |] eqn:Hr.
  - right. exists sel, r. split; [reflexivity | exact Hr].
  - left. right. exists sel. split; [reflexivity | exact Hr].
Qed.

(** X1. When the error is a [GitError] whose result carries a truthy dugite
    error that is in [AuthenticationErrors], [gitAuthenticationErrorHandler]
    writes that dugite error to the console, once, changes nothing else, and
    hands the error on. *)
Theorem gitAuthenticationErrorHandler_logs_authentication_error
  (g : GitError) (e : DugiteError) (d : Dispatcher) (w : World) :
  gitError (result g) = Some e ->
  Js.to_boolean (enum_to_js e) = true ->
  In e AuthenticationErrors ->
  runState (gitAuthenticationErrorHandler (GitError_as_Error g) d) w
  = (Some (GitError_as_Error g),
     {| appState := appState w;
        calls := calls w;
        console := console w ++ [enum_to_js e] |}).
Proof.
  intros Hg Ht Hin. apply AuthenticationErrors_has_In in Hin.
  unfold gitAuthenticationErrorHandler. simpl asGitError. cbv iota beta.
  rewrite Hg, Ht, Hin. reflexivity.
Qed.

(** X2. In every other case [gitAuthenticationErrorHandler] is silent: when
    the error is not a [GitError], when its result carries no dugite error,
    when the dugite error is not in [AuthenticationErrors], and also when it
    is falsy (an enum member whose value is 0 or the empty string), be it in
    [AuthenticationErrors] or not, the error is handed on and the world,
    console included, is left as it was. *)
Theorem gitAuthenticationErrorHandler_silent_otherwise
  (error : Error) (d : Dispatcher) (w : World) :
  instanceofGitError error = false
  \/ (exists g, error = GitError_as_Error g
       /\ (gitError (result g) = None
           \/ exists e, gitError (result g) = Some e
                /\ (Js.to_boolean (enum_to_js e) = false
                    \/ ~ In e AuthenticationErrors))) ->
  runState (gitAuthenticationErrorHandler error d) w = (Some error, w).
Proof.
  intros [Hn | [g [-> [Hnone | [e [He Hcase]]]]]];
    unfold gitAuthenticationErrorHandler.
  - destruct error; simpl in Hn; try discriminate; reflexivity.
  - simpl asGitError. cbv iota beta. rewrite Hnone. reflexivity.
  - simpl asGitError. cbv iota beta. rewrite He.
    destruct Hcase as [Hf | Hnin].
    + rewrite Hf. reflexivity.
    + destruct (Js.to_boolean (enum_to_js e)); [| reflexivity].
      destruct (AuthenticationErrors_has e) eqn:Hh; [| reflexivity].
      exfalso. apply Hnin. now apply AuthenticationErrors_has_In.
Qed.

(** X3. Whatever the error, the selection and the dispatcher, a run of the
    missing-repository handler never presents an error and never writes to
    the console, and it either leaves the world exactly as it was or makes one
    call [updateRepositoryMissing(r, true)], [r] being the repository of the
    selection, not flagged missing before, and then resolves to [null]. *)
Theorem missingRepositoryHandler_call_discipline
  (appStore : AppStore) (error : Error) (d : Dispatcher) (w : World) :
  let h := createMissingRepositoryHandler appStore in
  console (worldAfter h error d w) = console w
  /\ count_calls isPresentError (calls (worldAfter h error d w))
     = count_calls isPresentError (calls w)
  /\ (worldAfter h error d w = w
      \/ exists sel r,
           selectedState (readState appStore w) = Some sel
           /\ selectedRepository sel = Some r
           /\ missing r = false
           /\ outcome h error d w = None
           /\ worldAfter h error d w
              = {| appState := updateRepositoryMissingEffect d r true (appState w);
                   calls := calls w ++ [UpdateRepositoryMissing r true];
                   console := console w |}).
Proof.
  intros h. unfold h, outcome, worldAfter.
  destruct (selection_cases (readState appStore w))
    as [Hoff | [sel [r [Hsel Hr]]]].
  - rewrite (missingRepositoryHandler_off_repository appStore error d w Hoff).
    simpl. auto.
  - rewrite (missingRepositoryHandler_on_repository
               appStore error d w sel r Hsel Hr).
    destruct (missing r) eqn:Hm; [simpl; auto |].
    destruct (missingTest error); [| simpl; auto].
    cbn [fst snd calls console]. rewrite count_calls_snoc. simpl.
    split; [reflexivity |]. split; [lia |].
    right. exists sel, r. auto.
Qed.

(** X4. With a non-empty [RepositoryDoesNotExistErrorCode], the
    missing-repository handler resolves to [null] exactly when the selection
    carries a repository and either that repository is flagged missing or the
    error qualifies as "resource now missing"; in every other case the error
    is handed on. *)
Theorem missingRepositoryHandler_resolves_iff
  (appStore : AppStore) (error : Error) (d : Dispatcher) (w : World) :
  RepositoryDoesNotExistErrorCode <> "" ->
  (outcome (createMissingRepositoryHandler appStore) error d w = None
   <-> exists sel r,
         selectedState (readState appStore w) = Some sel
         /\ selectedRepository sel = Some r
         /\ (missing r = true \/ qualifiesAsMissing error)).
Proof.
  intros Hne. unfold outcome. split.
  - destruct (selection_cases (readState appStore w))
      as [Hoff | [sel [r [Hsel Hr]]]].
    + rewrite (missingRepositoryHandler_off_repository appStore error d w Hoff).
      discriminate.
    + rewrite (missingRepositoryHandler_on_repository
                 appStore error d w sel r Hsel Hr).
      intros H. exists sel, r. split; [exact Hsel |]. split; [exact Hr |].
      destruct (missing r); [left; reflexivity |].
      destruct (missingTest error) eqn:Ht; [| discriminate].
      right. now apply missingTest_qualifies.
  - intros [sel [r [Hsel [Hr Hcase]]]].
    rewrite (missingRepositoryHandler_on_repository
               appStore error d w sel r Hsel Hr).
    destruct (missing r) eqn:Hm; [reflexivity |].
    destruct Hcase as [Hm' | Hq]; [discriminate |].
    rewrite (qualifies_missingTest error Hne Hq). reflexivity.
Qed.

(** X5. A selection of kind [MissingRepository] whose repository record is
    not flagged missing is treated like a [Repository] selection: on an error
    that qualifies as "resource now missing" the handler calls
    [updateRepositoryMissing] once, with that repository and [true], and
    resolves to [null]. *)
Theorem missingRepositoryHandler_marks_unflagged_missing_selection
  (appStore : AppStore) (error : Error) (d : Dispatcher) (w : World)
  (r : Repository) :
  selectedState (readState appStore w) = Some (SelectedMissingRepository r) ->
  missing r = false ->
  RepositoryDoesNotExistErrorCode <> "" ->
  qualifiesAsMissing error ->
  runState (createMissingRepositoryHandler appStore error d) w
  = (None, {| appState := updateRepositoryMissingEffect d r true (appState w);
              calls := calls w ++ [UpdateRepositoryMissing r true];
              console := console w |}).
Proof.
  intros Hsel Hm Hne Hq.
  rewrite (missingRepositoryHandler_on_repository
             appStore error d w _ r Hsel eq_refl).
  rewrite Hm, (qualifies_missingTest error Hne Hq). reflexivity.
Qed.

(** X6. The missing-repository handler does not look through a metadata
    wrapper: an [ErrorWithMetadata] whose own [code] is not
    [RepositoryDoesNotExistErrorCode] is handed on unchanged, with no call
    made, when the selected repository is not flagged missing, whatever the
    error it wraps is, a [GitError] carrying [NotAGitRepository] included. *)
Theorem missingRepositoryHandler_ignores_wrapped_error
  (appStore : AppStore) (m : ErrorWithMetadata) (d : Dispatcher) (w : World)
  (sel : PossibleSelections) (r : Repository) :
  selectedState (readState appStore w) = Some sel ->
  selectedRepository sel = Some r ->
  missing r = false ->
  errorCode (ErrorWithMetadata_as_Error m)
    <> Js.JsString RepositoryDoesNotExistErrorCode ->
  runState (createMissingRepositoryHandler appStore
              (ErrorWithMetadata_as_Error m) d) w
  = (Some (ErrorWithMetadata_as_Error m), w).
Proof.
  intros Hsel Hr Hm Hc.
  rewrite (missingRepositoryHandler_on_repository
             appStore _ d w sel r Hsel Hr), Hm.
  destruct (missingTest (ErrorWithMetadata_as_Error m)) eqn:Ht; [| reflexivity].
  apply missingTest_qualifies in Ht.
  destruct Ht as [[g [Hg _]] | Hq]; [discriminate | contradiction].
Qed.

(** X7. [backgroundTaskHandler] never changes the world, and it resolves to
    [null] only for an [ErrorWithMetadata] whose metadata has [backgroundTask]
    true: an error without metadata, or with the flag false or absent, is
    never suppressed. *)
Theorem backgroundTaskHandler_resolves_iff
  (error : Error) (d : Dispatcher) (w : World) :
  worldAfter backgroundTaskHandler error d w = w
  /\ (outcome backgroundTaskHandler error d w = None
      <-> exists m, error = ErrorWithMetadata_as_Error m
                    /\ backgroundTask (metadata m) = Some true).
Proof.
  unfold worldAfter, outcome, backgroundTaskHandler.
  destruct error as [f | g | m]; simpl.
  - split; [reflexivity |]. split; [discriminate |].
    intros [m [H _]]. discriminate.
  - split; [reflexivity |]. split; [discriminate |].
    intros [m [H _]]. discriminate.
  - destruct (backgroundTask (metadata m)) as [[|] |] eqn:Hb; simpl.
    + split; [reflexivity |]. split; [| reflexivity].
      intros _. exists m. split; [reflexivity | exact Hb].
    + split; [reflexivity |]. split; [discriminate |].
      intros [m' [H Hb']]. injection H as <-. congruence.
    + split; [reflexivity |]. split; [discriminate |].
      intros [m' [H Hb']]. injection H as <-. congruence.
Qed.

(** X8. Once the handler has marked the selected repository missing and the
    store shows a selection whose repository is flagged missing, a second run
    of the handler, on any error, resolves to [null] without a further call:
    over the two runs [updateRepositoryMissing] is called exactly once. *)
Theorem missingRepositoryHandler_second_run_is_quiet
  (appStore : AppStore) (e1 e2 : Error) (d : Dispatcher) (w : World)
  (sel sel' : PossibleSelections) (r r' : Repository) :
  selectedState (readState appStore w) = Some sel ->
  selectedRepository sel = Some r ->
  missing r = false ->
  RepositoryDoesNotExistErrorCode <> "" ->
  qualifiesAsMissing e1 ->
  selectedState
    (readState appStore
       (worldAfter (createMissingRepositoryHandler appStore) e1 d w))
  = Some sel' ->
  selectedRepository sel' = Some r' ->
  missing r' = true ->
  runState (createMissingRepositoryHandler appStore e2 d)
           (worldAfter (createMissingRepositoryHandler appStore) e1 d w)
  = (None, worldAfter (createMissingRepositoryHandler appStore) e1 d w)
  /\ calls (worldAfter (createMissingRepositoryHandler appStore) e2 d
             (worldAfter (createMissingRepositoryHandler appStore) e1 d w))
     = (calls w ++ [UpdateRepositoryMissing r true])%list
  /\ count_calls isUpdateRepositoryMissing
       (calls (worldAfter (createMissingRepositoryHandler appStore) e2 d
                 (worldAfter (createMissingRepositoryHandler appStore) e1 d w)))
     = S (count_calls isUpdateRepositoryMissing (calls w)).
Proof.
  intros Hsel Hr Hm Hne Hq Hsel' Hr' Hm'.
  set (h := createMissingRepositoryHandler appStore) in *.
  assert (H1 : worldAfter h e1 d w
               = {| appState := updateRepositoryMissingEffect d r true (appState w);
                    calls := calls w ++ [UpdateRepositoryMissing r true];
                    console := console w |}).
  { unfold worldAfter, h.
    rewrite (missingRepositoryHandler_on_repository
               appStore e1 d w sel r Hsel Hr).
    rewrite Hm, (qualifies_missingTest e1 Hne Hq). reflexivity. }
  assert (H2 : runState (h e2 d) (worldAfter h e1 d w)
               = (None, worldAfter h e1 d w)).
  { unfold h at 1.
    rewrite (missingRepositoryHandler_on_repository
               appStore e2 d _ sel' r' Hsel' Hr').
    rewrite Hm'. reflexivity. }
  split; [exact H2 |].
  unfold worldAfter at 1 3. rewrite H2. cbn [snd].
  rewrite H1. cbn [calls]. rewrite count_calls_snoc. simpl.
  split; [reflexivity | lia].
Qed.

End ErrorHandlers.

(** ** The theorems at concrete inputs *)

(** C1, as the specification words it, fails: a foreground error wrapped with
    its metadata is handed on as the wrapper, not as the error it wraps. *)
Lemma backgroundTaskHandler_unwrap_counterexample :
  backgroundTask (metadata Sample.foreground) = Some false
  /\ outcome backgroundTaskHandler
       (ErrorWithMetadata_as_Error Sample.foreground)
       Sample.dispatcher (Sample.world None)
     = Some (ErrorWithMetadata_as_Error Sample.foreground)
  /\ outcome backgroundTaskHandler
       (ErrorWithMetadata_as_Error Sample.foreground)
       Sample.dispatcher (Sample.world None)
     <> Some (underlyingError Sample.foreground).
Proof.
  split; [reflexivity |]. split; [reflexivity |].
  cbv. discriminate.
Qed.

Lemma backgroundTaskHandler_propagates_wrapper_witness :
  runState (backgroundTaskHandler
              (ErrorWithMetadata_as_Error Sample.foreground) Sample.dispatcher)
           (Sample.world None)
  = (Some (ErrorWithMetadata_as_Error Sample.foreground), Sample.world None)
  /\ ErrorWithMetadata_as_Error Sample.foreground
     <> underlyingError Sample.foreground.
Proof.
  apply (backgroundTaskHandler_propagates_wrapper
           Sample.foreground Sample.dispatcher (Sample.world None)).
  left. reflexivity.
Defined.

Lemma missingRepositoryHandler_marks_missing_witness :
  let h := createMissingRepositoryHandler
             Sample.NotAGitRepository Sample.RepositoryDoesNotExistErrorCode
             Sample.appStore in
  let w := Sample.world (Some (SelectedRepository Sample.repo)) in
  let w' := {| appState :=
                 updateRepositoryMissingEffect Sample.dispatcher Sample.repo true
                   (appState w);
               calls := calls w ++ [UpdateRepositoryMissing Sample.repo true];
               console := console w |} in
  (runState (h Sample.enoent Sample.dispatcher) w = (None, w')
   /\ count_calls isUpdateRepositoryMissing
        (calls (worldAfter h Sample.enoent Sample.dispatcher w))
      = S (count_calls isUpdateRepositoryMissing (calls w))
   /\ count_calls isPresentError
        (calls (worldAfter h Sample.enoent Sample.dispatcher w))
      = count_calls isPresentError (calls w))
  /\ (runState (h Sample.notARepository Sample.dispatcher) w = (None, w')
      /\ count_calls isUpdateRepositoryMissing
           (calls (worldAfter h Sample.notARepository Sample.dispatcher w))
         = S (count_calls isUpdateRepositoryMissing (calls w))
      /\ count_calls isPresentError
           (calls (worldAfter h Sample.notARepository Sample.dispatcher w))
         = count_calls isPresentError (calls w)).
Proof.
  split.
  - apply (missingRepositoryHandler_marks_missing
             Sample.NotAGitRepository Sample.RepositoryDoesNotExistErrorCode
             Sample.appStore Sample.enoent Sample.dispatcher
             (Sample.world (Some (SelectedRepository Sample.repo)))
             Sample.repo).
    + reflexivity.
    + reflexivity.
    + discriminate.
    + right. reflexivity.
  - apply (missingRepositoryHandler_marks_missing
             Sample.NotAGitRepository Sample.RepositoryDoesNotExistErrorCode
             Sample.appStore Sample.notARepository Sample.dispatcher
             (Sample.world (Some (SelectedRepository Sample.repo)))
             Sample.repo).
    + reflexivity.
    + reflexivity.
    + discriminate.
    + left. exists (Sample.gitErrorOf 4 (Some Sample.NotAGitRepository)).
      split; reflexivity.
Defined.

Lemma missingRepositoryHandler_already_missing_witness :
  let h := createMissingRepositoryHandler
             Sample.NotAGitRepository Sample.RepositoryDoesNotExistErrorCode
             Sample.appStore in
  let w := Sample.world (Some (SelectedMissingRepository Sample.goneRepo)) in
  runState (h Sample.enoent Sample.dispatcher) w = (None, w)
  /\ count_calls isUpdateRepositoryMissing
       (calls (worldAfter h Sample.enoent Sample.dispatcher w))
     = count_calls isUpdateRepositoryMissing (calls w).
Proof.
  apply (missingRepositoryHandler_already_missing
           Sample.NotAGitRepository Sample.RepositoryDoesNotExistErrorCode
           Sample.appStore Sample.enoent Sample.dispatcher
           (Sample.world (Some (SelectedMissingRepository Sample.goneRepo)))
           (SelectedMissingRepository Sample.goneRepo) Sample.goneRepo).
  - reflexivity.
  - reflexivity.
  - reflexivity.
Defined.

Lemma missingRepositoryHandler_passes_through_witness :
  let h := createMissingRepositoryHandler
             Sample.NotAGitRepository Sample.RepositoryDoesNotExistErrorCode
             Sample.appStore in
  let passes error w :=
    runState (h error Sample.dispatcher) w = (Some error, w)
    /\ count_calls isUpdateRepositoryMissing
         (calls (worldAfter h error Sample.dispatcher w))
       = count_calls isUpdateRepositoryMissing (calls w) in
  passes Sample.enoent (Sample.world None)
  /\ passes Sample.enoent
       (Sample.world (Some (SelectedCloningRepository Sample.cloning)))
  /\ passes Sample.authFailed
       (Sample.world (Some (SelectedRepository Sample.repo))).
Proof.
  intros h passes. split; [| split].
  - apply (missingRepositoryHandler_passes_through
             Sample.NotAGitRepository Sample.RepositoryDoesNotExistErrorCode
             Sample.appStore Sample.enoent Sample.dispatcher (Sample.world None)).
    left. reflexivity.
  - apply (missingRepositoryHandler_passes_through
             Sample.NotAGitRepository Sample.RepositoryDoesNotExistErrorCode
             Sample.appStore Sample.enoent Sample.dispatcher
             (Sample.world (Some (SelectedCloningRepository Sample.cloning)))).
    right. left. exists (SelectedCloningRepository Sample.cloning).
    split; [reflexivity |]. split; discriminate.
  - apply (missingRepositoryHandler_passes_through
             Sample.NotAGitRepository Sample.RepositoryDoesNotExistErrorCode
             Sample.appStore Sample.authFailed Sample.dispatcher
             (Sample.world (Some (SelectedRepository Sample.repo)))).
    right. right. exists (SelectedRepository Sample.repo), Sample.repo.
    split; [reflexivity |]. split; [reflexivity |]. split; [reflexivity |].
    intros [[g [Hg Hn]] | Hc].
    + injection Hg as <-. discriminate Hn.
    + discriminate Hc.
Defined.

Lemma backgroundTaskHandler_suppresses_background_tasks_witness :
  runState (backgroundTaskHandler
              (ErrorWithMetadata_as_Error Sample.background) Sample.dispatcher)
           (Sample.world None)
  = (None, Sample.world None)
  /\ runState (backgroundTaskHandler Sample.notARepository Sample.dispatcher)
              (Sample.world None)
     = (Some Sample.notARepository, Sample.world None).
Proof.
  split.
  - apply (proj1 (backgroundTaskHandler_suppresses_background_tasks
                    (ErrorWithMetadata_as_Error Sample.background)
                    Sample.dispatcher (Sample.world None))
                 Sample.background).
    + reflexivity.
    + reflexivity.
  - apply (proj2 (backgroundTaskHandler_suppresses_background_tasks
                    Sample.notARepository
                    Sample.dispatcher (Sample.world None))).
    reflexivity.
Defined.

(** C8, as the specification words it, fails twice.  The error of a child
    process has the exit status as [code]: it has no string code, so it is
    not of the coded-error shape, and [asErrorWithCode] does not yield [null]
    for it.  And an error whose [code] is an accessor that throws makes
    [asErrorWithCode] throw; one whose accessor writes to the console makes
    classification write to the console. *)
Lemma classifiers_off_shape_counterexample :
  errorCode Sample.gitExit = Js.JsNumber 128
  /\ (forall s, errorCode Sample.gitExit <> Js.JsString s)
  /\ asErrorWithCode Sample.gitExit = Some Sample.gitExit
  /\ asErrorWithCode Sample.gitExit <> None
  /\ runState (evalAsErrorWithCode Sample.throwingCode Sample.plain)
              (Sample.world None)
     = (Throw (Js.JsString "code is not readable"), Sample.world None)
  /\ snd (runState (evalAsErrorWithCode Sample.loggingCode Sample.plain)
                   (Sample.world None))
     <> Sample.world None.
Proof.
  split; [reflexivity |]. split; [discriminate |].
  split; [reflexivity |]. split; [discriminate |].
  split; [reflexivity |].
  cbv. discriminate.
Qed.

Lemma classifiers_null_exactly_off_shape_witness :
  asErrorWithCode Sample.plain = None
  /\ asErrorWithCode Sample.gitExit = Some Sample.gitExit
  /\ asErrorWithMetadata Sample.plain = None
  /\ asGitError Sample.authFailed
     = Some (Sample.gitErrorOf 5 (Some Sample.HTTPSAuthenticationFailed))
  /\ runState (evalAsErrorWithCode Sample.loggingCode Sample.enoent)
              (Sample.world None)
     = (Normal (Some Sample.enoent),
        {| appState := {| selectedState := None |};
           calls := [];
           console := [Js.JsString "code was read"] |}).
Proof.
  split; [| split; [| split; [| split]]].
  - destruct (classifiers_null_exactly_off_shape Sample.plain) as (H & _).
    apply H. left. reflexivity.
  - destruct (classifiers_null_exactly_off_shape Sample.gitExit)
      as (_ & H & _).
    apply H.
    intros [H0 | [H0 | [H0 | [H0 | [H0 | [H0 | H0]]]]]]; discriminate H0.
  - destruct (classifiers_null_exactly_off_shape Sample.plain)
      as (_ & _ & _ & H & _).
    apply H. intros m Hm. discriminate Hm.
  - destruct (classifiers_null_exactly_off_shape Sample.authFailed)
      as (_ & _ & _ & _ & _ & _ & H & _).
    apply H. reflexivity.
  - destruct (classifiers_null_exactly_off_shape Sample.enoent)
      as (_ & _ & _ & _ & _ & _ & _ & H & _).
    apply (H Sample.loggingCode (Sample.world None)
             {| appState := {| selectedState := None |};
                calls := [];
                console := [Js.JsString "code was read"] |}
             (Js.JsString Sample.RepositoryDoesNotExistErrorCode)).
    reflexivity.
Defined.

(** C9, as the specification words it, fails: an error whose [code] is the
    number 20 has no string code at all, and [asErrorWithCode] does not return
    [null] for it. *)
Lemma asErrorWithCode_numeric_code_counterexample :
  errorCode Sample.numericCode = Js.JsNumber 20
  /\ (forall s, errorCode Sample.numericCode <> Js.JsString s)
  /\ asErrorWithCode Sample.numericCode = Some Sample.numericCode
  /\ asErrorWithCode Sample.numericCode <> None.
Proof.
  repeat split; try discriminate.
Qed.

Lemma asErrorWithCode_iff_truthy_code_witness :
  asErrorWithCode Sample.enoent = Some Sample.enoent
  /\ asErrorWithCode Sample.numericCode = Some Sample.numericCode
  /\ asErrorWithCode Sample.plain = None.
Proof.
  split; [| split].
  - apply (proj2 (proj2 (asErrorWithCode_iff_truthy_code Sample.enoent))
             Sample.RepositoryDoesNotExistErrorCode).
    + reflexivity.
    + discriminate.
  - apply (proj1 (asErrorWithCode_iff_truthy_code Sample.numericCode)).
    reflexivity.
  - apply (proj1 (proj2 (asErrorWithCode_iff_truthy_code Sample.plain))).
    reflexivity.
Defined.

Lemma handlers_propagate_input_error_witness :
  match outcome (gitAuthenticationErrorHandler Sample.AuthenticationErrors)
          Sample.authFailed Sample.dispatcher (Sample.world None) with
  | Some e' => e'
  | None => Sample.plain
  end = Sample.authFailed.
Proof.
  apply (handlers_propagate_input_error
           Sample.NotAGitRepository Sample.RepositoryDoesNotExistErrorCode
           Sample.AuthenticationErrors Sample.appStore
           (gitAuthenticationErrorHandler Sample.AuthenticationErrors)
           Sample.authFailed Sample.dispatcher (Sample.world None)).
  - right. right. left. reflexivity.
  - reflexivity.
Defined.

(** ** The further properties at concrete inputs *)

Lemma gitAuthenticationErrorHandler_logs_authentication_error_witness :
  runState (gitAuthenticationErrorHandler Sample.AuthenticationErrors
              Sample.authFailed Sample.dispatcher)
           (Sample.world None)
  = (Some Sample.authFailed,
     {| appState := {| selectedState := None |};
        calls := [];
        console := [Js.JsNumber 3] |}).
Proof.
  apply (gitAuthenticationErrorHandler_logs_authentication_error
           Sample.AuthenticationErrors
           (Sample.gitErrorOf 5 (Some Sample.HTTPSAuthenticationFailed))
           Sample.HTTPSAuthenticationFailed
           Sample.dispatcher (Sample.world None)).
  - reflexivity.
  - reflexivity.
  - right. left. reflexivity.
Defined.

Lemma gitAuthenticationErrorHandler_silent_otherwise_witness :
  runState (gitAuthenticationErrorHandler Sample.AuthenticationErrorsWithZero
              Sample.auditUnverified Sample.dispatcher)
           (Sample.world None)
  = (Some Sample.auditUnverified, Sample.world None)
  /\ runState (gitAuthenticationErrorHandler Sample.AuthenticationErrors
                 (ErrorWithMetadata_as_Error Sample.wrappedNotARepository)
                 Sample.dispatcher)
              (Sample.world None)
     = (Some (ErrorWithMetadata_as_Error Sample.wrappedNotARepository),
        Sample.world None).
Proof.
  split.
  - apply (gitAuthenticationErrorHandler_silent_otherwise
             Sample.AuthenticationErrorsWithZero
             Sample.auditUnverified Sample.dispatcher (Sample.world None)).
    right. exists (Sample.gitErrorOf 8 (Some Sample.SSHKeyAuditUnverified)).
    split; [reflexivity |].
    right. exists Sample.SSHKeyAuditUnverified.
    split; [reflexivity |]. left. reflexivity.
  - apply (gitAuthenticationErrorHandler_silent_otherwise
             Sample.AuthenticationErrors
             (ErrorWithMetadata_as_Error Sample.wrappedNotARepository)
             Sample.dispatcher (Sample.world None)).
    left. reflexivity.
Defined.

Lemma missingRepositoryHandler_resolves_iff_witness :
  outcome (createMissingRepositoryHandler
             Sample.NotAGitRepository Sample.RepositoryDoesNotExistErrorCode
             Sample.appStore)
          Sample.enoent Sample.dispatcher
          (Sample.world (Some (SelectedRepository Sample.repo)))
  = None.
Proof.
  apply (missingRepositoryHandler_resolves_iff
           Sample.NotAGitRepository Sample.RepositoryDoesNotExistErrorCode
           Sample.appStore Sample.enoent Sample.dispatcher
           (Sample.world (Some (SelectedRepository Sample.repo)))).
  - discriminate.
  - exists (SelectedRepository Sample.repo), Sample.repo.
    split; [reflexivity |]. split; [reflexivity |].
    right. right. reflexivity.
Defined.

Lemma missingRepositoryHandler_marks_unflagged_missing_selection_witness :
  runState (createMissingRepositoryHandler
              Sample.NotAGitRepository Sample.RepositoryDoesNotExistErrorCode
              Sample.appStore Sample.notARepository Sample.dispatcher)
           (Sample.world (Some (SelectedMissingRepository Sample.staleRepo)))
  = (None,
     {| appState :=
          {| selectedState :=
               Some (SelectedMissingRepository
                       {| id := 4; path := "/home/me/stale"; missing := true |}) |};
        calls := [UpdateRepositoryMissing Sample.staleRepo true];
        console := [] |}).
Proof.
  apply (missingRepositoryHandler_marks_unflagged_missing_selection
           Sample.NotAGitRepository Sample.RepositoryDoesNotExistErrorCode
           Sample.appStore Sample.notARepository Sample.dispatcher
           (Sample.world (Some (SelectedMissingRepository Sample.staleRepo)))
           Sample.staleRepo).
  - reflexivity.
  - reflexivity.
  - discriminate.
  - left. exists (Sample.gitErrorOf 4 (Some Sample.NotAGitRepository)).
    split; reflexivity.
Defined.

Lemma missingRepositoryHandler_ignores_wrapped_error_witness :
  underlyingError Sample.wrappedNotARepository = Sample.notARepository
  /\ runState (createMissingRepositoryHandler
                 Sample.NotAGitRepository Sample.RepositoryDoesNotExistErrorCode
                 Sample.appStore
                 (ErrorWithMetadata_as_Error Sample.wrappedNotARepository)
                 Sample.dispatcher)
              (Sample.world (Some (SelectedRepository Sample.repo)))
     = (Some (ErrorWithMetadata_as_Error Sample.wrappedNotARepository),
        Sample.world (Some (SelectedRepository Sample.repo))).
Proof.
  split; [reflexivity |].
  apply (missingRepositoryHandler_ignores_wrapped_error
           Sample.NotAGitRepository Sample.RepositoryDoesNotExistErrorCode
           Sample.appStore Sample.wrappedNotARepository Sample.dispatcher
           (Sample.world (Some (SelectedRepository Sample.repo)))
           (SelectedRepository Sample.repo) Sample.repo).
  - reflexivity.
  - reflexivity.
  - reflexivity.
  - discriminate.
Defined.

Lemma backgroundTaskHandler_resolves_iff_witness :
  outcome backgroundTaskHandler
    (ErrorWithMetadata_as_Error Sample.background)
    Sample.dispatcher (Sample.world None)
  = None.
Proof.
  apply (proj2 (backgroundTaskHandler_resolves_iff
                  (ErrorWithMetadata_as_Error Sample.background)
                  Sample.dispatcher (Sample.world None))).
  exists Sample.background. split; reflexivity.
Defined.

Lemma missingRepositoryHandler_second_run_is_quiet_witness :
  let h := createMissingRepositoryHandler
             Sample.NotAGitRepository Sample.RepositoryDoesNotExistErrorCode
             Sample.appStore in
  let w := Sample.world (Some (SelectedRepository Sample.repo)) in
  let w1 := worldAfter h Sample.notARepository Sample.dispatcher w in
  runState (h Sample.plain Sample.dispatcher) w1 = (None, w1)
  /\ calls (worldAfter h Sample.plain Sample.dispatcher w1)
     = (calls w ++ [UpdateRepositoryMissing Sample.repo true])%list
  /\ count_calls isUpdateRepositoryMissing
       (calls (worldAfter h Sample.plain Sample.dispatcher w1))
     = S (count_calls isUpdateRepositoryMissing (calls w)).
Proof.
  apply (missingRepositoryHandler_second_run_is_quiet
           Sample.NotAGitRepository Sample.RepositoryDoesNotExistErrorCode
           Sample.appStore Sample.notARepository Sample.plain Sample.dispatcher
           (Sample.world (Some (SelectedRepository Sample.repo)))
           (SelectedRepository Sample.repo)
           (SelectedMissingRepository
              {| id := 1; path := "/home/me/desktop"; missing := true |})
           Sample.repo
           {| id := 1; path := "/home/me/desktop"; missing := true |}).
  - reflexivity.
  - reflexivity.
  - reflexivity.
  - discriminate.
  - left. exists (Sample.gitErrorOf 4 (Some Sample.NotAGitRepository)).
    split; reflexivity.
  - reflexivity.
  - reflexivity.
  - reflexivity.
Defined.
